(** * The Gemini proxy handler of [api/gemini.js]

    A shallow embedding of the serverless function: the module's load-time
    code, the exported [async (req, res) => ...] handler, and the few pieces
    of JavaScript semantics it relies on (truthiness, destructuring of a
    possibly absent body, property reads on a caught value, completions).

    The vendor SDK ([@google/generative-ai]) and the hosting platform are not
    part of the repository; the SDK's one network capability is a Section
    variable, and the platform's dispatch of successive calls is a small
    harness at the end of the definitions. *)

From Stdlib Require Import String Ascii List ZArith Bool.
From Stdlib Require Import Floats.SpecFloat.
From Stdlib Require Import Lia.
From ExtLib Require Import Structures.Monad Structures.MonadExc.
Import ListNotations.
Import MonadNotation.

Local Open Scope string_scope.
Local Open Scope Z_scope.
Local Open Scope monad_scope.

(* ===================================================================== *)
(** ** JavaScript values and the operations the handler applies to them  *)
(* ===================================================================== *)

Module Js.

#[local] Set Warnings "-register-all".

(** The values a request body, a prompt or a thrown value can be. Numbers
    are IEEE-754 doubles, in the Standard Library's specification form.
    An object is its own properties in insertion order. *)
Inductive JsValue : Type :=
| JsUndefined
| JsNull
| JsBoolean (b : bool)
| JsNumber (n : spec_float)
| JsString (s : string)
| JsArray (elements : list JsValue)
| JsObject (properties : list (string * JsValue)).

(** A completion record: a statement either finishes with a value or
    throws one. For an [async] function, [Normal] is the fulfilled promise
    and [Throw] the rejected one. *)
Inductive Completion (A : Type) : Type :=
| Normal (a : A)
| Throw (e : JsValue).
Arguments Normal {A} a.
Arguments Throw {A} e.

(** [ToBoolean], the test behind [!x] and [if (x)]: the falsy values are
    [undefined], [null], [false], [+0], [-0], [NaN] and the empty string. *)
Definition ToBoolean (v : JsValue) : bool :=
  match v with
  | JsUndefined | JsNull => false
  | JsBoolean b => b
  | JsNumber (S754_zero _) | JsNumber S754_nan => false
  | JsNumber _ => true
  | JsString EmptyString => false
  | JsString _ => true
  | JsArray _ | JsObject _ => true
  end.

Fixpoint own_property (props : list (string * JsValue)) (key : string)
  : option JsValue :=
  match props with
  | [] => None
  | (k, v) :: rest => if String.eqb k key then Some v else own_property rest key
  end.

(** [v.key] on a value that is neither [undefined] nor [null], for a key
    that no built-in prototype defines ([prompt], [message], [success],
    [text], ...): an object yields its own property, everything else
    (primitives are boxed, arrays only have indices and [length]) yields
    [undefined]. An [Error] instance is an object whose [message] is an
    own property. *)
Definition Get (v : JsValue) (key : string) : JsValue :=
  match v with
  | JsObject props =>
      match own_property props key with
      | Some x => x
      | None => JsUndefined
      end
  | _ => JsUndefined
  end.

Definition TypeError (message : string) : JsValue :=
  JsObject [("name", JsString "TypeError"); ("message", JsString message)].

Definition type_name (v : JsValue) : string :=
  match v with
  | JsNull => "null"
  | _ => "undefined"
  end.

(** [RequireObjectCoercible]: reading a property of, or destructuring,
    [undefined] or [null] throws a [TypeError]. *)
Definition is_nullish (v : JsValue) : bool :=
  match v with
  | JsUndefined | JsNull => true
  | _ => false
  end.

(** [const { key } = v;] where [v] is the expression printed as [source]. *)
Definition destructure (source : string) (v : JsValue) (key : string)
  : Completion JsValue :=
  if is_nullish v then
    Throw (TypeError ("Cannot destructure property '" ++ key ++ "' of '"
                      ++ source ++ "' as it is " ++ type_name v ++ "."))
  else Normal (Get v key).

(** [v.key] as an expression. *)
Definition member (v : JsValue) (key : string) : Completion JsValue :=
  if is_nullish v then
    Throw (TypeError ("Cannot read properties of " ++ type_name v
                      ++ " (reading '" ++ key ++ "')"))
  else Normal (Get v key).

Definition has_property (v : JsValue) (key : string) : bool :=
  match v with
  | JsObject props =>
      match own_property props key with
      | Some _ => true
      | None => false
      end
  | _ => false
  end.

End Js.
Export Js.

(* ===================================================================== *)
(** ** The collaborators: request, response, SDK                          *)
(* ===================================================================== *)

(** What the handler reads of [req]. Node delivers the method as a string;
    [req.body] is whatever the platform parsed: a JSON value, a string, or
    [undefined] when the request carried no body the platform understands. *)
Record Request : Type := {
  method : string;
  body : JsValue
}.

(** What the handler writes of [res]: [res.status(c)] stores the code and
    [res.json(b)] sends the payload with the stored code. Neither throws. *)
Record ServerResponse : Type := {
  statusCode : Z
}.

Module Sdk.

(** [response.text()]: the SDK returns the candidate's text, or throws when
    the response was blocked. *)
Record EnhancedGenerateContentResponse : Type := {
  text : Completion string
}.

Record GenerateContentResult : Type := {
  response : EnhancedGenerateContentResponse
}.

Record GoogleGenerativeAI : Type := {
  apiKey : JsValue
}.

Record GenerativeModel : Type := {
  client : GoogleGenerativeAI;
  modelParams : JsValue
}.

End Sdk.
Export Sdk.

(** Everything observable, in the order it happens. *)
Inductive Event : Type :=
| NewGoogleGenerativeAI (key : JsValue)
| GetGenerativeModel (params : JsValue)
| Invoked (req : Request)
| GenerateContent (prompt : JsValue)
| ConsoleError (args : list JsValue)
| Sent (code : Z) (payload : JsValue).

Definition dquote : string := String "034"%char EmptyString.

Section Handler.

(** The state of the upstream service (quota, sampling, network), and the
    SDK's [model.generateContent(prompt)] awaited: it resolves with a
    result or rejects, and may change the upstream state. *)
Variable UpstreamState : Type.
Variable sdk_generateContent :
  GenerativeModel -> JsValue -> UpstreamState ->
  Completion GenerateContentResult * UpstreamState.

Record World : Type := {
  upstream : UpstreamState;
  res : ServerResponse;
  trace : list Event
}.

(** Effectful code: state is threaded, and a throw keeps the effects that
    happened before it. *)
Definition Eff (A : Type) : Type := World -> Completion A * World.

#[local] Instance Monad_Eff : Monad Eff := {
  ret := fun A (a : A) w => (Normal a, w);
  bind := fun A B (c : Eff A) (k : A -> Eff B) w =>
    match c w with
    | (Normal a, w') => k a w'
    | (Throw e, w') => (Throw e, w')
    end
}.

(** [try { c } catch (error) { h error }] *)
#[local] Instance Exception_Eff : MonadExc JsValue Eff := {
  raise := fun A e w => (Throw e, w);
  catch := fun A (c : Eff A) (h : JsValue -> Eff A) w =>
    match c w with
    | (Normal a, w') => (Normal a, w')
    | (Throw e, w') => h e w'
    end
}.

Definition lift {A : Type} (c : Completion A) : Eff A :=
  fun w => (c, w).

Definition log (ev : Event) : Eff unit :=
  fun w => (Normal tt,
            {| upstream := upstream w; res := res w;
               trace := trace w ++ [ev] |}).

(** [res.status(code)] *)
Definition res_status (code : Z) : Eff unit :=
  fun w => (Normal tt,
            {| upstream := upstream w; res := {| statusCode := code |};
               trace := trace w |}).

(** [.json(payload)] *)
Definition res_json (payload : JsValue) : Eff unit :=
  fun w => log (Sent (statusCode (res w)) payload) w.

(** [console.error(...args)] *)
Definition console_error (args : list JsValue) : Eff unit :=
  log (ConsoleError args).

(** [await model.generateContent(prompt)] *)
Definition generateContent (model : GenerativeModel) (prompt : JsValue)
  : Eff GenerateContentResult :=
  fun w =>
    let w1 := {| upstream := upstream w; res := res w;
                 trace := trace w ++ [GenerateContent prompt] |} in
    let (c, s) := sdk_generateContent model prompt (upstream w1) in
    (c, {| upstream := s; res := res w1; trace := trace w1 |}).

(** [new GoogleGenerativeAI(key)] *)
Definition new_GoogleGenerativeAI (key : JsValue) : Eff GoogleGenerativeAI :=
  log (NewGoogleGenerativeAI key) ;;
  ret {| apiKey := key |}.

(** [genAI.getGenerativeModel(params)] *)
Definition getGenerativeModel (genAI : GoogleGenerativeAI) (params : JsValue)
  : Eff GenerativeModel :=
  log (GetGenerativeModel params) ;;
  ret {| client := genAI; modelParams := params |}.

(* ------------------------------------------------------------------- *)
(** *** Module scope                                                    *)
(* ------------------------------------------------------------------- *)

(** The module's three [const] bindings. *)
Record Bindings : Type := {
  GEMINI_API_KEY : JsValue;
  genAI : GoogleGenerativeAI;
  model : GenerativeModel
}.

Fixpoint getenv (env : list (string * string)) (name : string) : JsValue :=
  match env with
  | [] => JsUndefined
  | (k, v) :: rest => if String.eqb k name then JsString v else getenv rest name
  end.

(** The statements executed when the module is required. *)
Definition load (process_env : list (string * string)) : Eff Bindings :=
  let key := getenv process_env "GEMINI_API_KEY" in
  (if negb (ToBoolean key) then
     console_error [JsString "Gemini API key is not set. Please configure it as a Vercel Environment Variable named GEMINI_API_KEY."]
   else ret tt) ;;
  g <- new_GoogleGenerativeAI key ;;
  m <- getGenerativeModel g (JsObject [("model", JsString "gemini-pro")]) ;;
  ret {| GEMINI_API_KEY := key; genAI := g; model := m |}.

(* ------------------------------------------------------------------- *)
(** *** The handler                                                     *)
(* ------------------------------------------------------------------- *)

Definition method_not_allowed : JsValue :=
  JsObject [("success", JsBoolean false);
            ("error", JsString "Method Not Allowed. Only POST requests are supported.")].

Definition missing_prompt : JsValue :=
  JsObject [("success", JsBoolean false);
            ("error", JsString ("Missing " ++ dquote ++ "prompt" ++ dquote
                                ++ " in request body."))].

Definition generated (text : string) : JsValue :=
  JsObject [("success", JsBoolean true); ("text", JsString text)].

Definition generation_failed (details : JsValue) : JsValue :=
  JsObject [("success", JsBoolean false);
            ("error", JsString "Failed to generate AI insight.");
            ("details", details)].

(** [module.exports = async (req, res) => { ... }] *)
Definition handler (m : Bindings) (req : Request) : Eff unit :=
  if negb (String.eqb (method req) "POST") then
    res_status 405 ;;
    res_json method_not_allowed
  else
    prompt <- lift (destructure "req.body" (body req) "prompt") ;;
    if negb (ToBoolean prompt) then
      res_status 400 ;;
      res_json missing_prompt
    else
      catch
        (result <- generateContent (model m) prompt ;;
         let response := response result in
         text <- lift (text response) ;;
         res_status 200 ;;
         res_json (generated text))
        (fun error =>
           console_error [JsString "Error calling Gemini API:"; error] ;;
           res_status 500 ;;
           message <- lift (member error "message") ;;
           res_json (generation_failed message)).

(* ------------------------------------------------------------------- *)
(** *** The platform's dispatch                                         *)
(* ------------------------------------------------------------------- *)

(** One inbound call: the platform hands the handler a fresh response
    object and absorbs whatever the returned promise settles to. *)
Definition invoke (m : Bindings) (req : Request) (w : World) : World :=
  let w0 := {| upstream := upstream w; res := {| statusCode := 200 |};
               trace := trace w ++ [Invoked req] |} in
  snd (handler m req w0).

Definition serve (m : Bindings) (reqs : list Request) (w : World) : World :=
  fold_left (fun acc req => invoke m req acc) reqs w.

(** A process: the module is loaded, then calls are served. *)
Definition run_process (process_env : list (string * string))
           (reqs : list Request) (w : World) : World :=
  match load process_env w with
  | (Normal m, w') => serve m reqs w'
  | (Throw _, w') => w'
  end.

End Handler.

Arguments upstream {UpstreamState} w.
Arguments res {UpstreamState} w.
Arguments trace {UpstreamState} w.
Arguments Build_World {UpstreamState} upstream res trace.
Arguments handler {UpstreamState} sdk_generateContent m req w.
Arguments load {UpstreamState} process_env w.
Arguments invoke {UpstreamState} sdk_generateContent m req w.
Arguments serve {UpstreamState} sdk_generateContent m reqs w.
Arguments run_process {UpstreamState} sdk_generateContent process_env reqs w.

(* ===================================================================== *)
(** ** Vocabulary of the properties                                       *)
(* ===================================================================== *)

(** The calls to the generation capability in a run of events, with the
    prompt each one was given. *)
Fixpoint calls (evs : list Event) : list JsValue :=
  match evs with
  | [] => []
  | GenerateContent p :: rest => p :: calls rest
  | _ :: rest => calls rest
  end.

(** The responses sent in a run of events: status and JSON payload. *)
Fixpoint responses (evs : list Event) : list (Z * JsValue) :=
  match evs with
  | [] => []
  | Sent code payload :: rest => (code, payload) :: responses rest
  | _ :: rest => responses rest
  end.

(** Constructions of the client handle or of the model in a run of events. *)
Fixpoint constructions (evs : list Event) : list Event :=
  match evs with
  | [] => []
  | NewGoogleGenerativeAI k :: rest => NewGoogleGenerativeAI k :: constructions rest
  | GetGenerativeModel p :: rest => GetGenerativeModel p :: constructions rest
  | _ :: rest => constructions rest
  end.

Fixpoint invocations (evs : list Event) : list Request :=
  match evs with
  | [] => []
  | Invoked r :: rest => r :: invocations rest
  | _ :: rest => invocations rest
  end.

(** The events one call of the handler adds to the trace. *)
Definition emitted {UpstreamState : Type}
           (sdk : GenerativeModel -> JsValue -> UpstreamState ->
                  Completion GenerateContentResult * UpstreamState)
           (m : Bindings) (req : Request) (w : World UpstreamState)
  : list Event :=
  skipn (length (trace w)) (trace (snd (handler sdk m req w))).

(** A request that gets past both local checks: the method is [POST] and
    the body yields a truthy [prompt]. *)
Definition accepted (req : Request) : bool :=
  String.eqb (method req) "POST" &&
  match destructure "req.body" (body req) "prompt" with
  | Normal prompt => ToBoolean prompt
  | Throw _ => false
  end.

Definition is_string (v : JsValue) : bool :=
  match v with
  | JsString _ => true
  | _ => false
  end.

(** The envelope rule: a [success:true] payload carries a string [text] and
    has no [error] and no [details]; a [success:false] payload carries a
    string [error] and has no [text]. *)
Definition envelope_ok (payload : JsValue) : bool :=
  match Get payload "success" with
  | JsBoolean true =>
      is_string (Get payload "text")
      && negb (has_property payload "error")
      && negb (has_property payload "details")
  | JsBoolean false =>
      is_string (Get payload "error")
      && negb (has_property payload "text")
  | _ => false
  end.

(** The generation capability, as the [try] block uses it, fails with the
    thrown value [e]: either the awaited call rejects, or it resolves and
    [response.text()] throws. *)
Inductive generation_fails {UpstreamState : Type}
          (sdk : GenerativeModel -> JsValue -> UpstreamState ->
                 Completion GenerateContentResult * UpstreamState)
          (gm : GenerativeModel) (prompt : JsValue) (s : UpstreamState)
  : JsValue -> UpstreamState -> Prop :=
| call_rejects e s' :
    sdk gm prompt s = (Throw e, s') ->
    generation_fails sdk gm prompt s e s'
| text_throws result e s' :
    sdk gm prompt s = (Normal result, s') ->
    text (response result) = Throw e ->
    generation_fails sdk gm prompt s e s'.

(** The generation capability succeeds with the text [T]. *)
Definition generation_succeeds {UpstreamState : Type}
           (sdk : GenerativeModel -> JsValue -> UpstreamState ->
                  Completion GenerateContentResult * UpstreamState)
           (gm : GenerativeModel) (prompt : JsValue) (s : UpstreamState)
           (T : string) (s' : UpstreamState) : Prop :=
  exists result,
    sdk gm prompt s = (Normal result, s') /\
    text (response result) = Normal T.

(** The events of loading the module. *)
Definition load_events (process_env : list (string * string)) : list Event :=
  let key := getenv process_env "GEMINI_API_KEY" in
  ((if ToBoolean key then []
    else [ConsoleError [JsString "Gemini API key is not set. Please configure it as a Vercel Environment Variable named GEMINI_API_KEY."]])
   ++ [NewGoogleGenerativeAI key;
       GetGenerativeModel (JsObject [("model", JsString "gemini-pro")])])%list.

(** Lazy construction, as a property of a trace: whenever the client handle
    is constructed, some invocation of the handler has already begun. *)
Definition lazily_constructed (evs : list Event) : Prop :=
  forall pre key post,
    evs = (pre ++ NewGoogleGenerativeAI key :: post)%list ->
    invocations pre <> [].

(** The six ways a call of the handler can go, with the completion of the
    returned promise and the world it leaves. *)
Inductive handled {UpstreamState : Type}
          (sdk : GenerativeModel -> JsValue -> UpstreamState ->
                 Completion GenerateContentResult * UpstreamState)
          (m : Bindings) (req : Request) (w : World UpstreamState)
  : Completion unit * World UpstreamState -> Prop :=
| wrong_method :
    method req <> "POST" ->
    handled sdk m req w
      (Normal tt,
       {| upstream := upstream w; res := {| statusCode := 405 |};
          trace := trace w ++ [Sent 405 method_not_allowed] |})
| no_body e :
    method req = "POST" ->
    destructure "req.body" (body req) "prompt" = Throw e ->
    handled sdk m req w (Throw e, w)
| no_prompt prompt :
    method req = "POST" ->
    destructure "req.body" (body req) "prompt" = Normal prompt ->
    ToBoolean prompt = false ->
    handled sdk m req w
      (Normal tt,
       {| upstream := upstream w; res := {| statusCode := 400 |};
          trace := trace w ++ [Sent 400 missing_prompt] |})
| generation_ok prompt T s' :
    method req = "POST" ->
    destructure "req.body" (body req) "prompt" = Normal prompt ->
    ToBoolean prompt = true ->
    generation_succeeds sdk (model m) prompt (upstream w) T s' ->
    handled sdk m req w
      (Normal tt,
       {| upstream := s'; res := {| statusCode := 200 |};
          trace := trace w ++ [GenerateContent prompt; Sent 200 (generated T)] |})
| generation_ko prompt e s' message :
    method req = "POST" ->
    destructure "req.body" (body req) "prompt" = Normal prompt ->
    ToBoolean prompt = true ->
    generation_fails sdk (model m) prompt (upstream w) e s' ->
    member e "message" = Normal message ->
    handled sdk m req w
      (Normal tt,
       {| upstream := s'; res := {| statusCode := 500 |};
          trace := trace w ++
                   [GenerateContent prompt;
                    ConsoleError [JsString "Error calling Gemini API:"; e];
                    Sent 500 (generation_failed message)] |})
| catch_block_throws prompt e s' e' :
    method req = "POST" ->
    destructure "req.body" (body req) "prompt" = Normal prompt ->
    ToBoolean prompt = true ->
    generation_fails sdk (model m) prompt (upstream w) e s' ->
    member e "message" = Throw e' ->
    handled sdk m req w
      (Throw e',
       {| upstream := s'; res := {| statusCode := 500 |};
          trace := trace w ++
                   [GenerateContent prompt;
                    ConsoleError [JsString "Error calling Gemini API:"; e]] |}).

(** What was written to [console.error] in a run of events: the argument
    list of each call. *)
Fixpoint console_errors (evs : list Event) : list (list JsValue) :=
  match evs with
  | [] => []
  | ConsoleError args :: rest => args :: console_errors rest
  | _ :: rest => console_errors rest
  end.

(** The model handle the module's top-level statements build from the
    environment: [new GoogleGenerativeAI(process.env.GEMINI_API_KEY)
    .getGenerativeModel({ model: "gemini-pro" })]. *)
Definition configured_model (process_env : list (string * string))
  : GenerativeModel :=
  {| client := {| apiKey := getenv process_env "GEMINI_API_KEY" |};
     modelParams := JsObject [("model", JsString "gemini-pro")] |}.

(* ===================================================================== *)
(** ** Fixtures                                                           *)
(* ===================================================================== *)

Module Fixtures.

(** An upstream that counts its calls and always answers "Hi there!". *)
Definition greets (_ : GenerativeModel) (_ : JsValue) (n : nat)
  : Completion GenerateContentResult * nat :=
  (Normal {| response := {| text := Normal "Hi there!" |} |}, S n).

Definition Error (message : string) : JsValue :=
  JsObject [("message", JsString message)].

(** An upstream that always rejects with "rate limit exceeded". *)
Definition rate_limited (_ : GenerativeModel) (_ : JsValue) (n : nat)
  : Completion GenerateContentResult * nat :=
  (Throw (Error "rate limit exceeded"), S n).

(** An upstream whose rejection value is [null]. *)
Definition rejects_with_null (_ : GenerativeModel) (_ : JsValue) (n : nat)
  : Completion GenerateContentResult * nat :=
  (Throw JsNull, S n).


(** An upstream that answers only the model configured with key "k". *)
Definition keyed (gm : GenerativeModel) (_ : JsValue) (n : nat)
  : Completion GenerateContentResult * nat :=
  match apiKey (client gm) with
  | JsString "k" => (Normal {| response := {| text := Normal "Hi there!" |} |}, S n)
  | _ => (Throw (Error "API key not valid"), S n)
  end.

Definition fresh : World nat :=
  {| upstream := 0%nat; res := {| statusCode := 200 |}; trace := [] |}.

Definition bindings : Bindings :=
  let g := {| apiKey := JsString "k" |} in
  {| GEMINI_API_KEY := JsString "k";
     genAI := g;
     model := {| client := g;
                 modelParams := JsObject [("model", JsString "gemini-pro")] |} |}.

Definition post (b : JsValue) : Request := {| method := "POST"; body := b |}.

Definition hello : Request := post (JsObject [("prompt", JsString "Hello")]).

Definition get_root : Request := {| method := "GET"; body := JsUndefined |}.

End Fixtures.

(* ===================================================================== *)
(** ** Properties                                                         *)
(* ===================================================================== *)

Lemma skipn_length_app {A : Type} (l evs : list A) :
  skipn (length l) (l ++ evs) = evs.
Proof.
  induction l as [|x l IH]; [reflexivity | exact IH].
Qed.

Section Properties.

Variable UpstreamState : Type.
Variable sdk :
  GenerativeModel -> JsValue -> UpstreamState ->
  Completion GenerateContentResult * UpstreamState.

Implicit Types (m : Bindings) (req : Request) (w : World UpstreamState).

(** Every call of the handler goes one of the six ways. *)
Lemma handler_handled m req w : handled sdk m req w (handler sdk m req w).
Proof.
  unfold handler, generateContent, res_json, res_status, console_error, log, lift.
  destruct (String.eqb_spec (method req) "POST") as [Hm | Hm]; cbn.
  2: { apply wrong_method; exact Hm. }
  destruct (destructure "req.body" (body req) "prompt") as [prompt | e0] eqn:Hd;
    cbn.
  2: { apply no_body; assumption. }
  destruct (ToBoolean prompt) eqn:Ht; cbn.
  2: { eapply no_prompt; eassumption. }
  destruct (sdk (model m) prompt (upstream w)) as [[result | e] s'] eqn:Hs; cbn.
  - destruct (text (response result)) as [T | e] eqn:HT; cbn.
    + rewrite <- app_assoc. apply generation_ok; try assumption.
      exists result; split; assumption.
    + assert (Hf : generation_fails sdk (model m) prompt (upstream w) e s')
        by (eapply text_throws; eassumption).
      destruct (member e "message") as [msg | e'] eqn:Hmsg; cbn.
      * rewrite <- !app_assoc. eapply generation_ko; eassumption.
      * rewrite <- !app_assoc. eapply catch_block_throws; eassumption.
  - assert (Hf : generation_fails sdk (model m) prompt (upstream w) e s')
      by (apply call_rejects; assumption).
    destruct (member e "message") as [msg | e'] eqn:Hmsg; cbn.
    + rewrite <- !app_assoc. eapply generation_ko; eassumption.
    + rewrite <- !app_assoc. eapply catch_block_throws; eassumption.
Qed.

(** Case analysis over the six ways, with the handler's result rewritten
    into the goal and [emitted] computed. *)
Ltac by_paths m req w :=
  let H := fresh "H" in
  pose proof (handler_handled m req w) as H;
  unfold emitted;
  inversion H as
      [ Hm Heq
      | e0 Hm Hd Heq
      | p0 Hm Hd Ht Heq
      | p0 T0 s0 Hm Hd Ht Hg Heq
      | p0 e0 s0 msg0 Hm Hd Ht Hg Hmsg Heq
      | p0 e0 s0 e1 Hm Hd Ht Hg Hmsg Heq ];
  clear H; try rewrite <- Heq; cbn [fst snd trace upstream res];
  rewrite ?skipn_length_app, ?skipn_all.

Lemma truthy_prompt_destructures (b : JsValue) :
  ToBoolean (Get b "prompt") = true ->
  destructure "req.body" b "prompt" = Normal (Get b "prompt").
Proof.
  destruct b; cbn; intros H; try reflexivity; discriminate H.
Qed.

Lemma destructure_normal (b p : JsValue) :
  destructure "req.body" b "prompt" = Normal p -> p = Get b "prompt".
Proof.
  unfold destructure. destruct (is_nullish b); intros H; congruence.
Qed.

Lemma accepted_iff req :
  accepted req = true <->
  method req = "POST" /\ ToBoolean (Get (body req) "prompt") = true.
Proof.
  unfold accepted. rewrite andb_true_iff, String.eqb_eq.
  split; intros [Hm Hp]; split; try exact Hm.
  - destruct (destructure "req.body" (body req) "prompt") as [p | e] eqn:Hd;
      [| discriminate Hp].
    apply destructure_normal in Hd. subst p. exact Hp.
  - rewrite (truthy_prompt_destructures _ Hp). exact Hp.
Qed.

Lemma succeeds_fails_exclusive gm p s T s1 e s2 :
  generation_succeeds sdk gm p s T s1 ->
  generation_fails sdk gm p s e s2 -> False.
Proof.
  intros [result [Hs HT]] Hf.
  inversion Hf as [e' s' Hr | result' e' s' Hr HT']; subst; congruence.
Qed.

Lemma generation_succeeds_functional gm p s T1 s1 T2 s2 :
  generation_succeeds sdk gm p s T1 s1 ->
  generation_succeeds sdk gm p s T2 s2 -> T1 = T2 /\ s1 = s2.
Proof.
  intros [r1 [Hs1 HT1]] [r2 [Hs2 HT2]].
  rewrite Hs1 in Hs2. injection Hs2 as -> ->.
  rewrite HT1 in HT2. injection HT2 as ->. split; reflexivity.
Qed.

Lemma generation_fails_functional gm p s e1 s1 e2 s2 :
  generation_fails sdk gm p s e1 s1 ->
  generation_fails sdk gm p s e2 s2 -> e1 = e2 /\ s1 = s2.
Proof.
  intros H1 H2.
  inversion H1 as [a1 b1 Hr1 | r1 a1 b1 Hr1 HT1]; subst;
    inversion H2 as [a2 b2 Hr2 | r2 a2 b2 Hr2 HT2]; subst;
    rewrite Hr1 in Hr2; try discriminate Hr2.
  - injection Hr2 as -> ->. split; reflexivity.
  - injection Hr2 as -> ->. rewrite HT1 in HT2. injection HT2 as ->.
    split; reflexivity.
Qed.

(** C3: a request whose method is not POST is answered 405 with the
    method-not-allowed envelope, whatever its body is; nothing else
    happens. *)
Theorem non_post_is_rejected_405 m req w :
  method req <> "POST" ->
  handler sdk m req w =
    (Normal tt,
     {| upstream := upstream w;
        res := {| statusCode := 405 |};
        trace := trace w ++
          [Sent 405
             (JsObject
                [("success", JsBoolean false);
                 ("error",
                  JsString "Method Not Allowed. Only POST requests are supported.")])]
     |}).
Proof.
  intros Hne. by_paths m req w; try contradiction. reflexivity.
Qed.

(** C1: for a POST request with a truthy prompt, when the generation
    capability succeeds with text T, the handler calls the capability once
    with the prompt exactly as read from the body, and answers 200 with
    {success:true, text:T}. *)
Theorem success_path m req w T s' :
  method req = "POST" ->
  ToBoolean (Get (body req) "prompt") = true ->
  generation_succeeds sdk (model m) (Get (body req) "prompt") (upstream w) T s' ->
  handler sdk m req w =
    (Normal tt,
     {| upstream := s';
        res := {| statusCode := 200 |};
        trace := trace w ++
          [GenerateContent (Get (body req) "prompt");
           Sent 200
             (JsObject [("success", JsBoolean true); ("text", JsString T)])]
     |}).
Proof.
  intros Hpost Htruthy Hgen.
  pose proof (truthy_prompt_destructures _ Htruthy) as Hd'.
  by_paths m req w; try congruence.
  - rewrite Hd' in Hd. injection Hd as <-.
    destruct (generation_succeeds_functional _ _ _ _ _ _ _ Hgen Hg) as [-> ->].
    reflexivity.
  - rewrite Hd' in Hd. injection Hd as <-.
    destruct (succeeds_fails_exclusive _ _ _ _ _ _ _ Hgen Hg).
  - rewrite Hd' in Hd. injection Hd as <-.
    destruct (succeeds_fails_exclusive _ _ _ _ _ _ _ Hgen Hg).
Qed.

(** The failure path for any readable [message], string or not. *)
Lemma caught_failure_any_message m req w e message s' :
  method req = "POST" ->
  ToBoolean (Get (body req) "prompt") = true ->
  generation_fails sdk (model m) (Get (body req) "prompt") (upstream w) e s' ->
  member e "message" = Normal message ->
  handler sdk m req w =
    (Normal tt,
     {| upstream := s';
        res := {| statusCode := 500 |};
        trace := trace w ++
          [GenerateContent (Get (body req) "prompt");
           ConsoleError [JsString "Error calling Gemini API:"; e];
           Sent 500 (generation_failed message)]
     |}).
Proof.
  intros Hpost Htruthy Hgen Hmessage.
  pose proof (truthy_prompt_destructures _ Htruthy) as Hd'.
  by_paths m req w; try congruence;
    rewrite Hd' in Hd; injection Hd as <-.
  - destruct (succeeds_fails_exclusive _ _ _ _ _ _ _ Hg Hgen).
  - destruct (generation_fails_functional _ _ _ _ _ _ _ Hgen Hg) as [<- <-].
    rewrite Hmessage in Hmsg. injection Hmsg as <-. reflexivity.
  - destruct (generation_fails_functional _ _ _ _ _ _ _ Hgen Hg) as [<- <-].
    congruence.
Qed.

(** C2: for a POST request with a truthy prompt, when the generation
    capability fails with a value whose message is M, the handler catches
    it, logs it, and answers 500 with exactly
    {success:false, error:"Failed to generate AI insight.", details:M};
    the returned promise is fulfilled, not rejected. *)
Theorem failure_path m req w e M s' :
  method req = "POST" ->
  ToBoolean (Get (body req) "prompt") = true ->
  generation_fails sdk (model m) (Get (body req) "prompt") (upstream w) e s' ->
  member e "message" = Normal (JsString M) ->
  handler sdk m req w =
    (Normal tt,
     {| upstream := s';
        res := {| statusCode := 500 |};
        trace := trace w ++
          [GenerateContent (Get (body req) "prompt");
           ConsoleError [JsString "Error calling Gemini API:"; e];
           Sent 500
             (JsObject
                [("success", JsBoolean false);
                 ("error", JsString "Failed to generate AI insight.");
                 ("details", JsString M)])]
     |}).
Proof.
  intros Hpost Htruthy Hgen Hmessage.
  exact (caught_failure_any_message m req w e (JsString M) s'
           Hpost Htruthy Hgen Hmessage).
Qed.

(** The prompt check on a body that is present: a falsy prompt (absent,
    empty string, [null], [false], [0], [NaN]) is answered 400. *)
Lemma falsy_prompt_is_rejected_400 m req w :
  method req = "POST" ->
  is_nullish (body req) = false ->
  ToBoolean (Get (body req) "prompt") = false ->
  handler sdk m req w =
    (Normal tt,
     {| upstream := upstream w;
        res := {| statusCode := 400 |};
        trace := trace w ++ [Sent 400 missing_prompt] |}).
Proof.
  intros Hpost Hbody Hfalsy.
  assert (Hd' : destructure "req.body" (body req) "prompt"
                = Normal (Get (body req) "prompt"))
    by (unfold destructure; rewrite Hbody; reflexivity).
  by_paths m req w; try congruence.
Qed.

(** A body with a truthy prompt passes the prompt check: no 400 is sent. *)
Lemma truthy_prompt_passes_check m req w :
  ToBoolean (Get (body req) "prompt") = true ->
  forall payload, ~ In (400, payload) (responses (emitted sdk m req w)).
Proof.
  intros Htruthy payload.
  pose proof (truthy_prompt_destructures _ Htruthy) as Hd'.
  by_paths m req w; cbn; try tauto;
    try (intros [Hin | []]; discriminate Hin).
  rewrite Hd' in Hd. injection Hd as <-. congruence.
Qed.

(** C4, at the input where the code departs from it: a POST request that
    carried no body ([req.body] is [undefined]) has no prompt field, yet the
    handler does not answer 400: destructuring throws a TypeError before the
    prompt check, the returned promise is rejected and nothing is sent. *)
Theorem post_without_body_throws m w :
  handler sdk m {| method := "POST"; body := JsUndefined |} w =
    (Throw (TypeError
              "Cannot destructure property 'prompt' of 'req.body' as it is undefined."),
     w)
  /\ responses (emitted sdk m {| method := "POST"; body := JsUndefined |} w) = [].
Proof.
  assert (Hrun : handler sdk m {| method := "POST"; body := JsUndefined |} w =
    (Throw (TypeError
              "Cannot destructure property 'prompt' of 'req.body' as it is undefined."),
     w)) by reflexivity.
  split; [exact Hrun |].
  unfold emitted. rewrite Hrun. cbn [snd]. rewrite skipn_all. reflexivity.
Qed.

(** C5: the method check comes first. A non-POST request is answered 405
    whatever its body holds, in particular never 400, and a 400 is only
    ever sent to a POST request. *)
Theorem method_check_precedes_prompt_check m req w :
  (method req <> "POST" ->
   responses (emitted sdk m req w) = [(405, method_not_allowed)]) /\
  (method req <> "POST" ->
   forall payload, ~ In (400, payload) (responses (emitted sdk m req w))) /\
  (forall payload,
     In (400, payload) (responses (emitted sdk m req w)) ->
     method req = "POST").
Proof.
  split; [| split].
  - intros Hne. by_paths m req w; try contradiction. reflexivity.
  - intros Hne payload. by_paths m req w; try contradiction.
    cbn. intros [Hin | []]. discriminate Hin.
  - intros payload. by_paths m req w; cbn; intros Hin; try assumption.
    destruct Hin as [Hin | []]. discriminate Hin.
Qed.

(** C6: a request rejected by local validation (its method is not POST, or
    its body yields no truthy prompt) causes no call to the generation
    capability and leaves the upstream untouched; a call is made only for a
    POST request with a truthy prompt. *)
Theorem rejected_requests_never_reach_upstream m req w :
  method req <> "POST" \/ ToBoolean (Get (body req) "prompt") = false ->
  calls (emitted sdk m req w) = [] /\
  upstream (snd (handler sdk m req w)) = upstream w.
Proof.
  intros Hrej.
  assert (Hacc : forall p, destructure "req.body" (body req) "prompt" = Normal p ->
                           method req = "POST" -> ToBoolean p = true -> False).
  { intros p Hd Hm Ht. apply destructure_normal in Hd. subst p.
    destruct Hrej as [Hne | Hf]; [contradiction | congruence]. }
  by_paths m req w; try (split; reflexivity);
    exfalso; eapply Hacc; eassumption.
Qed.

(** How [accepted] follows the handler's two checks. *)
Lemma accepted_false_of_method req :
  method req <> "POST" -> accepted req = false.
Proof.
  intros Hne. unfold accepted.
  destruct (String.eqb_spec (method req) "POST"); [contradiction | reflexivity].
Qed.

Lemma accepted_of_checks req p :
  method req = "POST" ->
  destructure "req.body" (body req) "prompt" = Normal p ->
  accepted req = ToBoolean p /\ p = Get (body req) "prompt".
Proof.
  intros Hm Hd. unfold accepted. rewrite Hm, Hd. cbn.
  split; [reflexivity | exact (destructure_normal _ _ Hd)].
Qed.

Lemma accepted_false_of_throw req e :
  destructure "req.body" (body req) "prompt" = Throw e ->
  accepted req = false.
Proof.
  intros Hd. unfold accepted. rewrite Hd. apply andb_false_r.
Qed.

(** C7: every response the handler sends obeys the envelope rule: with
    success=true it carries text and neither error nor details, with
    success=false it carries error and no text. The status is one of 200,
    400, 405, 500, and success=true goes with 200 only. *)
Theorem envelope_invariant m req w :
  Forall (fun r : Z * JsValue =>
            envelope_ok (snd r) = true /\
            In (fst r) [200; 400; 405; 500] /\
            (fst r = 200 <-> Get (snd r) "success" = JsBoolean true))
         (responses (emitted sdk m req w)).
Proof.
  by_paths m req w; cbn [responses];
    repeat (apply Forall_cons || apply Forall_nil);
    (split; [reflexivity | split; [cbn; tauto |]]);
    cbn; split; intros Habs; (reflexivity || discriminate Habs).
Qed.

(** C8: the handler calls the generation capability at most once per
    invocation: exactly once, with the prompt, when the request passes
    validation, and never otherwise. After a failed call there is no second
    attempt: the upstream is left as the failed call left it, and the only
    response that can follow is a 500. *)
Theorem at_most_one_call_no_retry m req w :
  calls (emitted sdk m req w)
  = (if accepted req then [Get (body req) "prompt"] else []) /\
  (forall e s',
     accepted req = true ->
     generation_fails sdk (model m) (Get (body req) "prompt") (upstream w) e s' ->
     calls (emitted sdk m req w) = [Get (body req) "prompt"] /\
     upstream (snd (handler sdk m req w)) = s' /\
     forall r, In r (responses (emitted sdk m req w)) -> fst r = 500).
Proof.
  split.
  - by_paths m req w.
    + rewrite (accepted_false_of_method _ Hm). reflexivity.
    + rewrite (accepted_false_of_throw _ _ Hd). reflexivity.
    + destruct (accepted_of_checks _ _ Hm Hd) as [-> _]. rewrite Ht. reflexivity.
    + destruct (accepted_of_checks _ _ Hm Hd) as [-> ->]. rewrite Ht. reflexivity.
    + destruct (accepted_of_checks _ _ Hm Hd) as [-> ->]. rewrite Ht. reflexivity.
    + destruct (accepted_of_checks _ _ Hm Hd) as [-> ->]. rewrite Ht. reflexivity.
  - intros e s' Hacc Hfail.
    apply accepted_iff in Hacc. destruct Hacc as [Hpost Htruthy].
    pose proof (truthy_prompt_destructures _ Htruthy) as Hd'.
    by_paths m req w; try congruence;
      rewrite Hd' in Hd; injection Hd as <-.
    + destruct (succeeds_fails_exclusive _ _ _ _ _ _ _ Hg Hfail).
    + destruct (generation_fails_functional _ _ _ _ _ _ _ Hfail Hg) as [<- <-].
      repeat split. cbn. intros r [<- | []]. reflexivity.
    + destruct (generation_fails_functional _ _ _ _ _ _ _ Hfail Hg) as [<- <-].
      repeat split. cbn. intros r [].
Qed.

(** A call settles in one of two ways: the promise is fulfilled and exactly
    one response was sent, or it is rejected and none was. *)
Lemma one_response_unless_thrown m req w :
  match fst (handler sdk m req w) with
  | Normal _ => length (responses (emitted sdk m req w)) = 1%nat
  | Throw _ => responses (emitted sdk m req w) = []
  end.
Proof.
  by_paths m req w; reflexivity.
Qed.

Lemma nullish_destructure_throws (b : JsValue) :
  is_nullish b = true ->
  exists e, destructure "req.body" b "prompt" = Throw e.
Proof.
  intros Hn. unfold destructure. rewrite Hn. eexists. reflexivity.
Qed.

Lemma nullish_member_throws (e : JsValue) :
  is_nullish e = true ->
  exists e', member e "message" = Throw e'.
Proof.
  intros Hn. unfold member. rewrite Hn. eexists. reflexivity.
Qed.

(** C10, at the inputs where the code departs from it: for a POST request
    whose body is [undefined] or [null], and for a POST request with a
    truthy prompt whose generation fails with [undefined] or [null], the
    handler does not complete normally: the returned promise is rejected and
    no response is sent. *)
Theorem exception_escapes m req w :
  method req = "POST" ->
  is_nullish (body req) = true \/
  (ToBoolean (Get (body req) "prompt") = true /\
   exists e s',
     generation_fails sdk (model m) (Get (body req) "prompt") (upstream w) e s' /\
     is_nullish e = true) ->
  exists e', fst (handler sdk m req w) = Throw e' /\
             responses (emitted sdk m req w) = [].
Proof.
  intros Hpost Hcase.
  assert (Hcases :
    (exists e, destructure "req.body" (body req) "prompt" = Throw e) \/
    (destructure "req.body" (body req) "prompt" = Normal (Get (body req) "prompt") /\
     ToBoolean (Get (body req) "prompt") = true /\
     exists e s' e',
       generation_fails sdk (model m) (Get (body req) "prompt") (upstream w) e s' /\
       member e "message" = Throw e')).
  { destruct Hcase as [Hn | [Ht [e [s' [Hf Hn]]]]].
    - left. apply nullish_destructure_throws. exact Hn.
    - right. split; [apply truthy_prompt_destructures; exact Ht |].
      split; [exact Ht |].
      destruct (nullish_member_throws _ Hn) as [e' He'].
      exists e, s', e'. split; assumption. }
  by_paths m req w; try contradiction.
  - eexists. split; reflexivity.
  - destruct Hcases as [[e He] | [Hd' [Ht' _]]]; congruence.
  - destruct Hcases as [[e He] | [Hd' [Ht' [e [s' [e' [Hf He']]]]]]];
      [congruence |].
    rewrite Hd' in Hd. injection Hd as <-.
    destruct (succeeds_fails_exclusive _ _ _ _ _ _ _ Hg Hf).
  - destruct Hcases as [[e He] | [Hd' [Ht' [e [s' [e' [Hf He']]]]]]];
      [congruence |].
    rewrite Hd' in Hd. injection Hd as <-.
    destruct (generation_fails_functional _ _ _ _ _ _ _ Hf Hg) as [<- <-].
    congruence.
  - eexists. split; reflexivity.
Qed.

(* --------------------------------------------------------------------- *)
(** *** The life of a process                                             *)
(* --------------------------------------------------------------------- *)

Lemma constructions_app (l1 l2 : list Event) :
  constructions (l1 ++ l2) = (constructions l1 ++ constructions l2)%list.
Proof.
  induction l1 as [|ev l1 IH]; [reflexivity |].
  destruct ev; cbn; rewrite IH; reflexivity.
Qed.

Lemma invocations_app (l1 l2 : list Event) :
  invocations (l1 ++ l2) = (invocations l1 ++ invocations l2)%list.
Proof.
  induction l1 as [|ev l1 IH]; [reflexivity |].
  destruct ev; cbn; rewrite IH; reflexivity.
Qed.

(** Loading the module never throws and constructs the handle and the model
    right away. *)
Lemma load_runs (process_env : list (string * string)) w :
  exists b,
    load process_env w =
      (Normal b,
       {| upstream := upstream w; res := res w;
          trace := trace w ++ load_events process_env |}).
Proof.
  unfold load, load_events, new_GoogleGenerativeAI, getGenerativeModel,
    console_error, log.
  destruct (ToBoolean (getenv process_env "GEMINI_API_KEY")); cbn;
    rewrite <- ?app_assoc; eexists; reflexivity.
Qed.

(** The handler neither reads nor rewrites the trace it extends. *)
Lemma handler_frame m req (s : UpstreamState) (r : ServerResponse)
      (t : list Event) :
  handler sdk m req {| upstream := s; res := r; trace := t |} =
    let (c, w') := handler sdk m req {| upstream := s; res := r; trace := [] |} in
    (c, {| upstream := upstream w'; res := res w'; trace := t ++ trace w' |}).
Proof.
  unfold handler, generateContent, res_json, res_status, console_error, log, lift.
  destruct (String.eqb (method req) "POST"); cbn; [| reflexivity].
  destruct (destructure "req.body" (body req) "prompt") as [prompt | e0]; cbn.
  2: { rewrite app_nil_r. reflexivity. }
  destruct (ToBoolean prompt); cbn; [| reflexivity].
  destruct (sdk (model m) prompt s) as [[result | e] s']; cbn.
  - destruct (text (response result)) as [T | e]; cbn.
    + rewrite <- app_assoc. reflexivity.
    + destruct (member e "message"); cbn; rewrite <- !app_assoc; reflexivity.
  - destruct (member e "message"); cbn; rewrite <- !app_assoc; reflexivity.
Qed.

(** One invocation is a function of the bindings, the request and the
    upstream alone: what earlier invocations left in the trace or in their
    response objects does not reach it. *)
Lemma invoke_frame m req w :
  invoke sdk m req w =
    let w' := invoke sdk m req
                {| upstream := upstream w; res := {| statusCode := 200 |};
                   trace := [] |} in
    {| upstream := upstream w'; res := res w';
       trace := trace w ++ trace w' |}.
Proof.
  unfold invoke. cbn [upstream res trace app].
  rewrite (handler_frame m req (upstream w) {| statusCode := 200 |}
             (trace w ++ [Invoked req])).
  rewrite (handler_frame m req (upstream w) {| statusCode := 200 |}
             [Invoked req]).
  destruct (handler sdk m req
              {| upstream := upstream w; res := {| statusCode := 200 |};
                 trace := [] |}) as [c w'].
  cbn. rewrite <- app_assoc. reflexivity.
Qed.

Lemma invoke_trace m req w :
  exists evs,
    trace (invoke sdk m req w) = (trace w ++ Invoked req :: evs)%list /\
    constructions evs = [] /\ invocations evs = [].
Proof.
  unfold invoke.
  match goal with
  | |- context [handler sdk m req ?w0] =>
      pose proof (handler_handled m req w0) as H
  end.
  inversion H as
      [ Hm Heq
      | e0 Hm Hd Heq
      | p0 Hm Hd Ht Heq
      | p0 T0 s0 Hm Hd Ht Hg Heq
      | p0 e0 s0 msg0 Hm Hd Ht Hg Hmsg Heq
      | p0 e0 s0 e1 Hm Hd Ht Hg Hmsg Heq ];
    clear H; cbn [snd trace]; rewrite <- ?app_assoc; cbn [app];
    eexists; (split; [reflexivity | split; reflexivity]).
Qed.

Lemma serve_trace m (reqs : list Request) :
  forall w,
  exists evs,
    trace (serve sdk m reqs w) = (trace w ++ evs)%list /\
    constructions evs = [] /\ invocations evs = reqs.
Proof.
  induction reqs as [|req reqs IH]; intros w.
  - exists []. rewrite app_nil_r. repeat split.
  - cbn [serve fold_left].
    destruct (IH (invoke sdk m req w)) as [evs [Ht [Hc Hi]]].
    destruct (invoke_trace m req w) as [evs0 [Ht0 [Hc0 Hi0]]].
    exists (Invoked req :: evs0 ++ evs)%list.
    unfold serve in Ht. rewrite Ht, Ht0.
    split; [rewrite <- app_assoc; reflexivity |].
    cbn [constructions invocations].
    rewrite constructions_app, invocations_app, Hc, Hc0, Hi, Hi0.
    split; reflexivity.
Qed.

(** C9, amended: the client handle is constructed eagerly, when the module
    is loaded: once per process, before the first invocation of the handler
    and whether or not one ever comes. Serving requests constructs nothing,
    and an invocation depends on earlier ones only through the upstream:
    the bindings it runs with are those made at load. *)
Theorem client_constructed_once_at_load
        (process_env : list (string * string)) (reqs : list Request) w :
  (exists served,
     trace (run_process sdk process_env reqs w)
     = (trace w ++ load_events process_env ++ served)%list /\
     constructions served = [] /\
     invocations served = reqs) /\
  constructions (load_events process_env)
  = [NewGoogleGenerativeAI (getenv process_env "GEMINI_API_KEY");
     GetGenerativeModel (JsObject [("model", JsString "gemini-pro")])] /\
  invocations (load_events process_env) = [] /\
  (forall m req,
     invoke sdk m req w =
       let w' := invoke sdk m req
                   {| upstream := upstream w; res := {| statusCode := 200 |};
                      trace := [] |} in
       {| upstream := upstream w'; res := res w';
          trace := trace w ++ trace w' |}).
Proof.
  split; [| split; [| split]].
  - unfold run_process.
    destruct (load_runs process_env w) as [b Hl]. rewrite Hl.
    destruct (serve_trace b reqs
                {| upstream := upstream w; res := res w;
                   trace := trace w ++ load_events process_env |})
      as [served [Ht [Hc Hi]]].
    exists served. cbn [trace] in Ht. rewrite Ht, <- app_assoc.
    repeat split; assumption.
  - unfold load_events.
    destruct (ToBoolean (getenv process_env "GEMINI_API_KEY")); reflexivity.
  - unfold load_events.
    destruct (ToBoolean (getenv process_env "GEMINI_API_KEY")); reflexivity.
  - intros m req. apply invoke_frame.
Qed.

End Properties.

(* ===================================================================== *)
(** ** Further properties of the module and of the handler               *)
(* ===================================================================== *)

Lemma calls_app (l1 l2 : list Event) :
  calls (l1 ++ l2) = (calls l1 ++ calls l2)%list.
Proof.
  induction l1 as [|ev l1 IH]; [reflexivity |].
  destruct ev; cbn; rewrite IH; reflexivity.
Qed.

Lemma responses_app (l1 l2 : list Event) :
  responses (l1 ++ l2) = (responses l1 ++ responses l2)%list.
Proof.
  induction l1 as [|ev l1 IH]; [reflexivity |].
  destruct ev; cbn; rewrite IH; reflexivity.
Qed.


Section Extras.

Variable UpstreamState : Type.
Variable sdk :
  GenerativeModel -> JsValue -> UpstreamState ->
  Completion GenerateContentResult * UpstreamState.

Implicit Types (m : Bindings) (req : Request) (w : World UpstreamState).

Ltac split_paths m req w :=
  let H := fresh "H" in
  pose proof (handler_handled UpstreamState sdk m req w) as H;
  unfold emitted;
  inversion H as
      [ Hm Heq
      | e0 Hm Hd Heq
      | p0 Hm Hd Ht Heq
      | p0 T0 s0 Hm Hd Ht Hg Heq
      | p0 e0 s0 msg0 Hm Hd Ht Hg Hmsg Heq
      | p0 e0 s0 e1 Hm Hd Ht Hg Hmsg Heq ];
  clear H; try rewrite <- Heq; cbn [fst snd trace upstream res statusCode];
  rewrite ?skipn_length_app, ?skipn_all.

(** The statements run at load, with the bindings they make. *)
Lemma load_bindings (process_env : list (string * string)) w :
  load process_env w =
    (Normal {| GEMINI_API_KEY := getenv process_env "GEMINI_API_KEY";
               genAI := client (configured_model process_env);
               model := configured_model process_env |},
     {| upstream := upstream w; res := res w;
        trace := trace w ++ load_events process_env |}).
Proof.
  unfold load, load_events, new_GoogleGenerativeAI, getGenerativeModel,
    console_error, log, configured_model.
  destruct (ToBoolean (getenv process_env "GEMINI_API_KEY")); cbn;
    rewrite <- ?app_assoc; reflexivity.
Qed.

(** X1: loading the module never throws, also without a key. It writes the
    one "key is not set" diagnostic unless GEMINI_API_KEY is a non-empty
    string, hands the key as it is (possibly [undefined]) to the client
    constructor, asks for the "gemini-pro" model, and neither calls the
    upstream nor sends anything. *)
Theorem missing_key_is_logged_not_fatal
        (process_env : list (string * string)) w :
  exists b evs,
    load process_env w =
      (Normal b,
       {| upstream := upstream w; res := res w; trace := trace w ++ evs |}) /\
    GEMINI_API_KEY b = getenv process_env "GEMINI_API_KEY" /\
    apiKey (genAI b) = getenv process_env "GEMINI_API_KEY" /\
    client (model b) = genAI b /\
    modelParams (model b) = JsObject [("model", JsString "gemini-pro")] /\
    console_errors evs =
      match getenv process_env "GEMINI_API_KEY" with
      | JsString (String _ _) => []
      | _ => [[JsString "Gemini API key is not set. Please configure it as a Vercel Environment Variable named GEMINI_API_KEY."]]
      end /\
    constructions evs =
      [NewGoogleGenerativeAI (getenv process_env "GEMINI_API_KEY");
       GetGenerativeModel (JsObject [("model", JsString "gemini-pro")])] /\
    calls evs = [] /\
    responses evs = [].
Proof.
  eexists. exists (load_events process_env).
  split; [apply load_bindings |].
  cbn [GEMINI_API_KEY genAI model configured_model client modelParams apiKey].
  repeat (split; [reflexivity |]).
  unfold load_events.
  assert (Hstr : forall k, exists v, getenv process_env k = JsUndefined
                                     \/ getenv process_env k = JsString v).
  { intros k. induction process_env as [|[k0 v0] env IH]; cbn.
    - exists "". left. reflexivity.
    - destruct (String.eqb k0 k); [exists v0; right; reflexivity | exact IH]. }
  destruct (Hstr "GEMINI_API_KEY") as [v [-> | ->]]; [repeat split |].
  destruct v; repeat split.
Qed.

(** X3: inside the handler, [console.error] is written exactly when the
    generation fails: one line, carrying the caught value itself. Rejected
    requests and successful generations log nothing. *)
Theorem failures_are_logged_and_only_failures m req w :
  (forall args,
     In args (console_errors (emitted sdk m req w)) ->
     accepted req = true /\
     exists e s',
       generation_fails sdk (model m) (Get (body req) "prompt") (upstream w) e s' /\
       args = [JsString "Error calling Gemini API:"; e]) /\
  (forall e s',
     accepted req = true ->
     generation_fails sdk (model m) (Get (body req) "prompt") (upstream w) e s' ->
     console_errors (emitted sdk m req w)
     = [[JsString "Error calling Gemini API:"; e]]).
Proof.
  split.
  - intros args.
    split_paths m req w; cbn; intros Hin; try contradiction;
      destruct Hin as [<- | []];
      destruct (accepted_of_checks _ _ Hm Hd) as [Hacc ->];
      (split; [congruence |]);
      exists e0, s0; (split; [assumption | reflexivity]).
  - intros e s' Hacc Hfail.
    apply accepted_iff in Hacc. destruct Hacc as [Hpost Htruthy].
    pose proof (truthy_prompt_destructures _ Htruthy) as Hd'.
    split_paths m req w; try congruence;
      rewrite Hd' in Hd; injection Hd as <-.
    + destruct (succeeds_fails_exclusive _ _ _ _ _ _ _ _ _ Hg Hfail).
    + destruct (generation_fails_functional _ _ _ _ _ _ _ _ _ Hfail Hg)
        as [<- <-]. reflexivity.
    + destruct (generation_fails_functional _ _ _ _ _ _ _ _ _ Hfail Hg)
        as [<- <-]. reflexivity.
Qed.

(** X4: the response ends the call. Whenever the handler sends a response,
    that is the last thing it does: nothing was sent before it, nothing at
    all happens after it, and its status is the one left in [res]. *)
Theorem response_is_the_last_event m req w pre code payload post :
  emitted sdk m req w = (pre ++ Sent code payload :: post)%list ->
  post = [] /\
  responses pre = [] /\
  statusCode (res (snd (handler sdk m req w))) = code.
Proof.
  split_paths m req w; intros Hsplit;
    destruct pre as [|a [|b [|c [|d pre]]]]; cbn in Hsplit;
    try discriminate Hsplit;
    inversion Hsplit; subst; repeat split; reflexivity.
Qed.


(** X6: of a request, only the method and the body's [prompt] reach the
    handler: two requests with the same method whose bodies are present
    and hold the same prompt are handled identically, whatever else the
    bodies contain. *)
Theorem only_method_and_prompt_matter m req1 req2 w :
  method req1 = method req2 ->
  is_nullish (body req1) = false ->
  is_nullish (body req2) = false ->
  Get (body req1) "prompt" = Get (body req2) "prompt" ->
  handler sdk m req1 w = handler sdk m req2 w.
Proof.
  intros Hmethod Hb1 Hb2 Hprompt.
  unfold handler, destructure.
  rewrite Hmethod, Hb1, Hb2, Hprompt. reflexivity.
Qed.

(* --------------------------------------------------------------------- *)
(** *** Over a whole process                                              *)
(* --------------------------------------------------------------------- *)

(** What one invocation adds to the calls and to the responses. *)
Lemma invoke_calls m req w :
  calls (trace (invoke sdk m req w))
  = (calls (trace w)
     ++ (if accepted req then [Get (body req) "prompt"] else []))%list.
Proof.
  unfold invoke.
  match goal with
  | |- context [handler sdk m req ?w0] =>
      pose proof (handler_handled UpstreamState sdk m req w0) as H
  end.
  inversion H as
      [ Hm Heq
      | e0 Hm Hd Heq
      | p0 Hm Hd Ht Heq
      | p0 T0 s0 Hm Hd Ht Hg Heq
      | p0 e0 s0 msg0 Hm Hd Ht Hg Hmsg Heq
      | p0 e0 s0 e1 Hm Hd Ht Hg Hmsg Heq ];
    clear H; cbn [snd trace]; rewrite !calls_app; cbn [calls];
    rewrite ?app_nil_r.
  - rewrite (accepted_false_of_method _ Hm), app_nil_r. reflexivity.
  - rewrite (accepted_false_of_throw _ _ Hd), app_nil_r. reflexivity.
  - destruct (accepted_of_checks _ _ Hm Hd) as [-> _]. rewrite Ht, app_nil_r.
    reflexivity.
  - destruct (accepted_of_checks _ _ Hm Hd) as [-> ->]. rewrite Ht. reflexivity.
  - destruct (accepted_of_checks _ _ Hm Hd) as [-> ->]. rewrite Ht. reflexivity.
  - destruct (accepted_of_checks _ _ Hm Hd) as [-> ->]. rewrite Ht. reflexivity.
Qed.

Lemma invoke_responses m req w :
  (length (responses (trace (invoke sdk m req w)))
   <= S (length (responses (trace w))))%nat.
Proof.
  unfold invoke.
  match goal with
  | |- context [handler sdk m req ?w0] =>
      pose proof (handler_handled UpstreamState sdk m req w0) as H
  end.
  inversion H as
      [ Hm Heq
      | e0 Hm Hd Heq
      | p0 Hm Hd Ht Heq
      | p0 T0 s0 Hm Hd Ht Hg Heq
      | p0 e0 s0 msg0 Hm Hd Ht Hg Hmsg Heq
      | p0 e0 s0 e1 Hm Hd Ht Hg Hmsg Heq ];
    clear H; cbn [snd trace]; rewrite !responses_app; cbn [responses];
    rewrite ?length_app; cbn [length]; lia.
Qed.

Lemma serve_calls m (reqs : list Request) :
  forall w,
    calls (trace (serve sdk m reqs w))
    = (calls (trace w)
       ++ map (fun r => Get (body r) "prompt") (filter accepted reqs))%list.
Proof.
  induction reqs as [|req reqs IH]; intros w.
  - cbn. rewrite app_nil_r. reflexivity.
  - cbn [serve fold_left]. unfold serve in IH. rewrite IH, invoke_calls.
    cbn [filter]. destruct (accepted req); cbn [map];
      rewrite <- app_assoc; reflexivity.
Qed.

Lemma serve_responses m (reqs : list Request) :
  forall w,
    (length (responses (trace (serve sdk m reqs w)))
     <= length (responses (trace w)) + length reqs)%nat.
Proof.
  induction reqs as [|req reqs IH]; intros w.
  - cbn. lia.
  - cbn [serve fold_left]. unfold serve in IH.
    specialize (IH (invoke sdk m req w)).
    pose proof (invoke_responses m req w). cbn [length]. lia.
Qed.

(** X7: over a whole process, the prompts sent upstream are exactly the
    prompts of the accepted requests, one call each, in the order the
    requests came; loading the module adds no call. *)
Theorem upstream_calls_of_a_process
        (process_env : list (string * string)) (reqs : list Request) w :
  calls (trace (run_process sdk process_env reqs w))
  = (calls (trace w)
     ++ map (fun r => Get (body r) "prompt") (filter accepted reqs))%list.
Proof.
  unfold run_process. rewrite load_bindings, serve_calls.
  cbn [trace]. rewrite calls_app.
  replace (calls (load_events process_env)) with (@nil JsValue);
    [rewrite app_nil_r; reflexivity |].
  unfold load_events.
  destruct (ToBoolean (getenv process_env "GEMINI_API_KEY")); reflexivity.
Qed.

(** X8: a process never sends more responses than it was given requests. *)
Theorem no_more_responses_than_requests
        (process_env : list (string * string)) (reqs : list Request) w :
  (length (responses (trace (run_process sdk process_env reqs w)))
   <= length (responses (trace w)) + length reqs)%nat.
Proof.
  unfold run_process. rewrite load_bindings.
  match goal with
  | |- context [serve sdk ?b reqs ?w1] =>
      pose proof (serve_responses b reqs w1) as Hle
  end.
  cbn [trace] in Hle. rewrite responses_app in Hle.
  replace (responses (load_events process_env)) with (@nil (Z * JsValue)) in Hle;
    [rewrite app_nil_r in Hle; exact Hle |].
  unfold load_events.
  destruct (ToBoolean (getenv process_env "GEMINI_API_KEY")); reflexivity.
Qed.

End Extras.

(** The handler reaches the SDK only through the model in its bindings. *)
Lemma handler_uses_its_model_only (UpstreamState : Type)
      (sdk1 sdk2 : GenerativeModel -> JsValue -> UpstreamState ->
                   Completion GenerateContentResult * UpstreamState)
      (m : Bindings) (req : Request) (w : World UpstreamState) :
  (forall p s, sdk1 (model m) p s = sdk2 (model m) p s) ->
  handler sdk1 m req w = handler sdk2 m req w.
Proof.
  intros Hagree.
  unfold handler, generateContent.
  destruct (String.eqb (method req) "POST"); cbn; [| reflexivity].
  destruct (destructure "req.body" (body req) "prompt") as [prompt | e0]; cbn;
    [| reflexivity].
  destruct (ToBoolean prompt); cbn; [| reflexivity].
  rewrite Hagree. reflexivity.
Qed.

(** X2: throughout a process, the SDK is only ever asked through the one
    model handle built at load from GEMINI_API_KEY and "gemini-pro": two
    SDKs that agree on that handle give the same process, whatever the
    requests contain. *)
Theorem only_the_configured_model_is_called (UpstreamState : Type)
      (sdk1 sdk2 : GenerativeModel -> JsValue -> UpstreamState ->
                   Completion GenerateContentResult * UpstreamState)
      (process_env : list (string * string)) (reqs : list Request)
      (w : World UpstreamState) :
  (forall p s,
     sdk1 (configured_model process_env) p s
     = sdk2 (configured_model process_env) p s) ->
  run_process sdk1 process_env reqs w = run_process sdk2 process_env reqs w.
Proof.
  intros Hagree.
  unfold run_process. rewrite !load_bindings.
  match goal with
  | |- serve sdk1 ?b reqs ?w1 = _ => generalize w1; set (bnd := b)
  end.
  unfold serve.
  induction reqs as [|req reqs IH]; intros w1; [reflexivity |].
  cbn [fold_left]. rewrite <- IH. f_equal.
  unfold invoke. f_equal.
  apply handler_uses_its_model_only. exact Hagree.
Qed.

(* ===================================================================== *)
(** ** Concrete runs                                                      *)
(* ===================================================================== *)

Module Scenarios.
Import Fixtures.

(** POST {prompt:"Hello"} with the client answering "Hi there!". *)
Example scenario_1 :
  handler greets bindings hello fresh =
    (Normal tt,
     {| upstream := 1%nat; res := {| statusCode := 200 |};
        trace := [GenerateContent (JsString "Hello");
                  Sent 200 (JsObject [("success", JsBoolean true);
                                      ("text", JsString "Hi there!")])] |}).
Proof. reflexivity. Qed.

(** GET / *)
Example scenario_2 :
  responses (emitted greets bindings get_root fresh) =
    [(405, JsObject [("success", JsBoolean false);
                     ("error", JsString "Method Not Allowed. Only POST requests are supported.")])].
Proof. reflexivity. Qed.

(** POST {} *)
Example scenario_3 :
  responses (emitted greets bindings (post (JsObject [])) fresh) =
    [(400, JsObject [("success", JsBoolean false);
                     ("error", JsString ("Missing " ++ dquote ++ "prompt"
                                         ++ dquote ++ " in request body."))])].
Proof. reflexivity. Qed.

(** POST {prompt:"X"} with the client throwing "rate limit exceeded". *)
Example scenario_4 :
  responses (emitted rate_limited bindings
               (post (JsObject [("prompt", JsString "X")])) fresh) =
    [(500, JsObject [("success", JsBoolean false);
                     ("error", JsString "Failed to generate AI insight.");
                     ("details", JsString "rate limit exceeded")])].
Proof. reflexivity. Qed.

(** POST {prompt:""}, POST {prompt:0} and POST "text": all 400. *)
Example empty_prompts :
  map (fun b => map fst (responses (emitted greets bindings (post b) fresh)))
      [JsObject [("prompt", JsString "")];
       JsObject [("prompt", JsNumber (S754_zero false))];
       JsString "text"]
  = [[400]; [400]; [400]].
Proof. reflexivity. Qed.

(** A client rejecting with [null]: the catch block itself throws. *)
Example rejection_with_null :
  handler rejects_with_null bindings hello fresh =
    (Throw (TypeError "Cannot read properties of null (reading 'message')"),
     {| upstream := 1%nat; res := {| statusCode := 500 |};
        trace := [GenerateContent (JsString "Hello");
                  ConsoleError [JsString "Error calling Gemini API:"; JsNull]] |}).
Proof. reflexivity. Qed.

(** The property of lazy construction is one a trace can have: a handle
    built inside the first invocation would satisfy it. *)
Example a_lazy_trace :
  lazily_constructed
    [Invoked hello; NewGoogleGenerativeAI (JsString "k");
     GenerateContent (JsString "Hello")].
Proof.
  intros pre key post Heq.
  destruct pre as [|ev pre]; [discriminate Heq |].
  injection Heq as <- _. cbn. discriminate.
Qed.

End Scenarios.

(** C9, as stated, fails: in a process that loads the module and then
    serves one request, the handle is constructed while no invocation has
    begun yet. *)
Lemma client_handle_is_not_lazy :
  ~ lazily_constructed
      (trace (run_process Fixtures.greets [("GEMINI_API_KEY", "k")]
                [Fixtures.hello] Fixtures.fresh)).
Proof.
  intros Hlazy.
  apply (Hlazy []
           (JsString "k")
           [GetGenerativeModel (JsObject [("model", JsString "gemini-pro")]);
            Invoked Fixtures.hello;
            GenerateContent (JsString "Hello");
            Sent 200 (generated "Hi there!")]).
  - reflexivity.
  - reflexivity.
Qed.

Lemma success_path_witness :
  method Fixtures.hello = "POST" /\
  ToBoolean (Get (body Fixtures.hello) "prompt") = true /\
  handler Fixtures.greets Fixtures.bindings Fixtures.hello Fixtures.fresh =
    (Normal tt,
     {| upstream := 1%nat; res := {| statusCode := 200 |};
        trace := [GenerateContent (JsString "Hello");
                  Sent 200 (JsObject [("success", JsBoolean true);
                                      ("text", JsString "Hi there!")])] |}).
Proof.
  split; [reflexivity | split; [reflexivity |]].
  apply (success_path nat Fixtures.greets Fixtures.bindings Fixtures.hello
           Fixtures.fresh "Hi there!" 1%nat).
  - reflexivity.
  - reflexivity.
  - eexists. split; reflexivity.
Defined.

Lemma failure_path_witness :
  method Fixtures.hello = "POST" /\
  ToBoolean (Get (body Fixtures.hello) "prompt") = true /\
  member (Fixtures.Error "rate limit exceeded") "message"
  = Normal (JsString "rate limit exceeded") /\
  handler Fixtures.rate_limited Fixtures.bindings Fixtures.hello Fixtures.fresh =
    (Normal tt,
     {| upstream := 1%nat; res := {| statusCode := 500 |};
        trace := [GenerateContent (JsString "Hello");
                  ConsoleError [JsString "Error calling Gemini API:";
                                Fixtures.Error "rate limit exceeded"];
                  Sent 500
                    (JsObject
                       [("success", JsBoolean false);
                        ("error", JsString "Failed to generate AI insight.");
                        ("details", JsString "rate limit exceeded")])] |}).
Proof.
  split; [reflexivity | split; [reflexivity | split; [reflexivity |]]].
  apply (failure_path nat Fixtures.rate_limited Fixtures.bindings Fixtures.hello
           Fixtures.fresh (Fixtures.Error "rate limit exceeded")
           "rate limit exceeded" 1%nat).
  - reflexivity.
  - reflexivity.
  - apply call_rejects. reflexivity.
  - reflexivity.
Defined.

Lemma non_post_is_rejected_405_witness :
  method Fixtures.get_root <> "POST" /\
  handler Fixtures.greets Fixtures.bindings Fixtures.get_root Fixtures.fresh =
    (Normal tt,
     {| upstream := 0%nat; res := {| statusCode := 405 |};
        trace := [Sent 405
                    (JsObject
                       [("success", JsBoolean false);
                        ("error",
                         JsString "Method Not Allowed. Only POST requests are supported.")])] |}).
Proof.
  assert (Hget : method Fixtures.get_root <> "POST")
    by (intros Habs; discriminate Habs).
  split; [exact Hget |].
  exact (non_post_is_rejected_405 nat Fixtures.greets Fixtures.bindings
           Fixtures.get_root Fixtures.fresh Hget).
Defined.

Lemma rejected_requests_never_reach_upstream_witness :
  ToBoolean (Get (body (Fixtures.post (JsObject []))) "prompt") = false /\
  calls (emitted Fixtures.greets Fixtures.bindings
           (Fixtures.post (JsObject [])) Fixtures.fresh) = [] /\
  upstream (snd (handler Fixtures.greets Fixtures.bindings
                   (Fixtures.post (JsObject [])) Fixtures.fresh)) = 0%nat.
Proof.
  split; [reflexivity |].
  apply (rejected_requests_never_reach_upstream nat Fixtures.greets
           Fixtures.bindings (Fixtures.post (JsObject [])) Fixtures.fresh).
  right. reflexivity.
Defined.

Lemma exception_escapes_witness :
  method (Fixtures.post JsUndefined) = "POST" /\
  is_nullish (body (Fixtures.post JsUndefined)) = true /\
  exists e',
    fst (handler Fixtures.greets Fixtures.bindings
           (Fixtures.post JsUndefined) Fixtures.fresh) = Throw e' /\
    responses (emitted Fixtures.greets Fixtures.bindings
                 (Fixtures.post JsUndefined) Fixtures.fresh) = [].
Proof.
  split; [reflexivity | split; [reflexivity |]].
  apply (exception_escapes nat Fixtures.greets Fixtures.bindings
           (Fixtures.post JsUndefined) Fixtures.fresh).
  - reflexivity.
  - left. reflexivity.
Defined.

Lemma only_the_configured_model_is_called_witness :
  (forall p s,
     Fixtures.keyed (configured_model [("GEMINI_API_KEY", "k")]) p s
     = Fixtures.greets (configured_model [("GEMINI_API_KEY", "k")]) p s) /\
  run_process Fixtures.keyed [("GEMINI_API_KEY", "k")]
    [Fixtures.hello; Fixtures.get_root] Fixtures.fresh
  = run_process Fixtures.greets [("GEMINI_API_KEY", "k")]
      [Fixtures.hello; Fixtures.get_root] Fixtures.fresh.
Proof.
  assert (Hagree : forall p s,
     Fixtures.keyed (configured_model [("GEMINI_API_KEY", "k")]) p s
     = Fixtures.greets (configured_model [("GEMINI_API_KEY", "k")]) p s)
    by (intros p s; reflexivity).
  split; [exact Hagree |].
  exact (only_the_configured_model_is_called nat Fixtures.keyed Fixtures.greets
           [("GEMINI_API_KEY", "k")] [Fixtures.hello; Fixtures.get_root]
           Fixtures.fresh Hagree).
Defined.

Lemma response_is_the_last_event_witness :
  emitted Fixtures.greets Fixtures.bindings Fixtures.hello Fixtures.fresh
  = ([GenerateContent (JsString "Hello")]
     ++ Sent 200 (generated "Hi there!") :: [])%list /\
  @nil Event = [] /\
  responses [GenerateContent (JsString "Hello")] = [] /\
  statusCode (res (snd (handler Fixtures.greets Fixtures.bindings
                          Fixtures.hello Fixtures.fresh))) = 200.
Proof.
  split; [reflexivity |].
  apply (response_is_the_last_event nat Fixtures.greets Fixtures.bindings
           Fixtures.hello Fixtures.fresh
           [GenerateContent (JsString "Hello")] 200
           (generated "Hi there!") []).
  reflexivity.
Defined.


Lemma only_method_and_prompt_matter_witness :
  Get (body Fixtures.hello) "prompt"
  = Get (JsObject [("model", JsString "gemini-ultra");
                   ("prompt", JsString "Hello");
                   ("apiKey", JsString "mine")]) "prompt" /\
  handler Fixtures.keyed Fixtures.bindings Fixtures.hello Fixtures.fresh
  = handler Fixtures.keyed Fixtures.bindings
      (Fixtures.post (JsObject [("model", JsString "gemini-ultra");
                                ("prompt", JsString "Hello");
                                ("apiKey", JsString "mine")]))
      Fixtures.fresh.
Proof.
  split; [reflexivity |].
  apply (only_method_and_prompt_matter nat Fixtures.keyed Fixtures.bindings
           Fixtures.hello
           (Fixtures.post (JsObject [("model", JsString "gemini-ultra");
                                     ("prompt", JsString "Hello");
                                     ("apiKey", JsString "mine")]))
           Fixtures.fresh).
  - reflexivity.
  - reflexivity.
  - reflexivity.
  - reflexivity.
Defined.

